(** * Try: a minimal unit-testing harness (include/Try/Try.hpp)

    A shallow embedding of the header: the source context, the value
    renderer [detail::stream], the argument logger [detail::streamArgs],
    the test runner [Try::operator()] and the assertion helpers built on
    it, followed by the properties of the specification.

    Conventions of the embedding.
    - [std::size_t] is the 64-bit unsigned integer of an LP64 platform: a
      value of [N] below [2^64]; [++] wraps around.
    - a [std::ostream] is the text written to it so far; [std::endl] writes
      a newline.
    - a C++ type is known by its [typeid(T).name()], by whether it is
      [std::nullptr_t] and by its [operator<<], when it has one.  The
      operator is taken as a function to the text it inserts: rendering
      runs inside [noexcept] code and is required not to throw.
    - a callable (a test body, a comparison operator) is a function of the
      stream it may write to, to what it returns or throws and the stream
      it leaves behind.  Bodies are taken to terminate and not to call the
      runner they run under. *)

From Stdlib Require Import String Ascii List Bool NArith ZArith Lia.
From Stdlib Require Import DecimalString DecimalN DecimalPos.
Import ListNotations.

Local Open Scope string_scope.
Local Open Scope N_scope.

(** ** std::size_t *)

Module Size.

Definition bits : N := 64.

(** One past SIZE_MAX. *)
Definition modulus : N := 2 ^ bits.

(** [++n] on a [std::size_t]. *)
Definition incr (n : N) : N := (n + 1) mod modulus.

(** [os << n]: decimal digits, no sign, no padding. *)
Definition to_string (n : N) : string :=
  NilZero.string_of_uint (N.to_uint n).

End Size.

(** ** std::ostream *)

Definition ostream := string.

(** ['"'], written [\"] in the source. *)
Definition dquote : string := String "034" EmptyString.

(** What [std::endl] inserts. *)
Definition endl : string := String "010" EmptyString.

(** [os << s] for text. *)
Definition put (os : ostream) (s : string) : ostream := os ++ s.

Declare Scope ostream_scope.
Delimit Scope ostream_scope with os.
Infix "<<" := put (at level 50, left associativity) : ostream_scope.
Local Open Scope ostream_scope.

(** ** SourceContext *)

Record SourceContext := {
  file : string;
  line : N
}.

(** [operator<<(std::ostream&, const SourceContext&)] *)
Definition put_context (os : ostream) (sc : SourceContext) : ostream :=
  os << file sc << ", line " << Size.to_string (line sc).

(** ** detail::is_streamable, typeid and detail::stream *)

(** What the templates of [detail] read off a type [T]. *)
Class TypeInfo (T : Type) := {
  (** [typeid(T).name()] *)
  type_name : string;
  (** [T] is [std::nullptr_t]: the non-template overload of [stream] is
      an exact match and is preferred to both templates. *)
  is_nullptr_t : bool;
  (** [operator<<(std::ostream&, T)]; [is_streamable<T>::value] is
      whether there is one. *)
  insertion : option (T -> string)
}.

Arguments type_name T {_}.
Arguments is_nullptr_t T {_}.
Arguments insertion T {_}.

Definition is_streamable (T : Type) `{TypeInfo T} : bool :=
  match insertion T with Some _ => true | None => false end.

(** The three overloads of [detail::stream], chosen as overload
    resolution chooses them. *)
Definition stream {T : Type} `{TypeInfo T} (os : ostream) (arg : T) : ostream :=
  if is_nullptr_t T then
    os << (dquote ++ "nullptr" ++ dquote ++ " (nullptr_t)")
  else
    match insertion T with
    | Some text => os << dquote << text arg << (dquote ++ " (") << type_name T << ")"
    | None => os << "[Can't print'] (" << type_name T << ")"
    end.

(** ** Argument packs and detail::streamArgs *)

(** [const Args&... args]: one value per type of the pack, in order. *)
Inductive pack : list Type -> Type :=
| pnil : pack []
| pcons {T : Type} {Ts : list Type} {ti : TypeInfo T}
    (first : T) (args : pack Ts) : pack (T :: Ts).

(** [sizeof...(args)] *)
Definition sizeof_pack {Ts : list Type} (_ : pack Ts) : nat := length Ts.

Definition phead {T : Type} {Ts : list Type} (p : pack (T :: Ts)) : T :=
  match p in pack l return match l with [] => unit | U :: _ => U end with
  | pnil => tt
  | pcons first _ => first
  end.

Definition ptail {T : Type} {Ts : list Type} (p : pack (T :: Ts)) : pack Ts :=
  match p in pack l return match l with [] => unit | _ :: Us => pack Us end with
  | pnil => tt
  | pcons _ args => args
  end.

Fixpoint streamArgs {Ts : list Type} (os : ostream) (p : pack Ts) : ostream :=
  match p with
  | pnil => os << endl
  | pcons first args => streamArgs (stream os first << endl) args
  end.

(** ** Exceptions *)

(** A thrown object: the name of its dynamic type ([typeid(e).name()]),
    the names of its accessible base classes, and what [what()] returns,
    read only when the object is a [std::exception]. *)
Record thrown := {
  dyn_type : string;
  bases : list string;
  what : string
}.

(** [typeid(std::exception).name()] and [typeid(std::runtime_error).name()]
    under the Itanium ABI. *)
Definition std_exception : string := "St9exception".
Definition std_runtime_error : string := "St13runtime_error".

(** Whether the handler [catch (const T&)] takes [e]: [e] is a [T] or of
    a class derived from [T]. *)
Definition catches (T : string) (e : thrown) : bool :=
  (T =? dyn_type e)%string || existsb (String.eqb T) (bases e).

(** [std::runtime_error{msg}] *)
Definition runtime_error (msg : string) : thrown :=
  {| dyn_type := std_runtime_error; bases := [std_exception]; what := msg |}.

(** ** Callables *)

Inductive result (R : Type) : Type :=
| Returned (r : R)
| Threw (e : thrown).

Arguments Returned {R} r.
Arguments Threw {R} e.

(** A call that may write to the stream and returns or throws. *)
Definition effect (R : Type) : Type := ostream -> result R * ostream.

Definition ret {R : Type} (r : R) : effect R := fun os => (Returned r, os).

Definition throw {R : Type} (e : thrown) : effect R := fun os => (Threw e, os).

Definition bind {A B : Type} (c : effect A) (k : A -> effect B) : effect B :=
  fun os =>
    match c os with
    | (Returned a, os') => k a os'
    | (Threw e, os') => (Threw e, os')
    end.

(** [try { c } catch ...]: [h] is the handler sequence. *)
Definition try_catch {A B : Type} (c : effect A) (k : A -> effect B)
    (h : thrown -> effect B) : effect B :=
  fun os =>
    match c os with
    | (Returned a, os') => k a os'
    | (Threw e, os') => h e os'
    end.

Declare Scope effect_scope.
Delimit Scope effect_scope with effect.
Notation "x <- c ;; k" := (bind c (fun x => k))
  (at level 61, c at next level, right associativity) : effect_scope.



(** ** Try *)

Record Try := {
  mOs : ostream;
  mSuccesCount : N;
  mFailCount : N
}.

(** [explicit Try(std::ostream& os)] *)
Definition Try_new (os : ostream) : Try :=
  {| mOs := os; mSuccesCount := 0; mFailCount := 0 |}.

Definition succesCount (t : Try) : N := mSuccesCount t.
Definition failCount (t : Try) : N := mFailCount t.

(** [Try::operator()], the [run] operation of the specification: runs
    [test(args...)] inside the [try] block and records the verdict; the
    handler for [std::exception] comes first, [catch (...)] second. *)
Definition run {Ts : list Type} {R : Type} (sc : SourceContext)
    (test : pack Ts -> effect R) (args : pack Ts) (t : Try) : bool * Try :=
  match test args (mOs t) with
  | (Returned _, os) =>
      (true,
       {| mOs := os;
          mSuccesCount := Size.incr (mSuccesCount t);
          mFailCount := mFailCount t |})
  | (Threw e, os) =>
      let os :=
        if catches std_exception e then
          put_context (os << "Test failed: ") sc << endl
             << ("Message: " ++ dquote) << what e << dquote << endl
        else
          put_context (os << "Test failed: ") sc << endl
             << "(no message)" << endl in
      let os :=
        if (sizeof_pack args =? 0)%nat then
          os << "(no arguments)" << endl << endl
        else
          streamArgs (os << "Arguments:" << endl) args in
      (false,
       {| mOs := os;
          mSuccesCount := mSuccesCount t;
          mFailCount := Size.incr (mFailCount t) |})
  end.

(** *** Assertion helpers *)

(** A comparison operator between a [T1] and a [T2]. *)
Definition comparison (T1 T2 : Type) : Type := T1 -> T2 -> effect bool.

(** The lambda shared by the four comparisons: throws a
    [std::runtime_error] carrying [msg] unless [op a b] holds. *)
Definition check {T1 T2 : Type}
    (op : comparison T1 T2) (msg : string) (p : pack [T1; T2]) : effect unit :=
  let a := phead p in
  let b := phead (ptail p) in
  (c <- op a b ;;
   if negb c then throw (runtime_error msg) else ret tt)%effect.

Section Comparisons.

Context {T1 T2 : Type} `{TypeInfo T1} `{TypeInfo T2}.

Definition equal (eq : comparison T1 T2) (sc : SourceContext)
    (a : T1) (b : T2) (t : Try) : bool * Try :=
  run sc (check eq "Arguments are not equal!") (pcons a (pcons b pnil)) t.

Definition notequal (ne : comparison T1 T2) (sc : SourceContext)
    (a : T1) (b : T2) (t : Try) : bool * Try :=
  run sc (check ne "Arguments are equal!") (pcons a (pcons b pnil)) t.

Definition less (lt : comparison T1 T2) (sc : SourceContext)
    (a : T1) (b : T2) (t : Try) : bool * Try :=
  run sc (check lt "The first argument is not less than the second!")
      (pcons a (pcons b pnil)) t.

Definition lequal (le : comparison T1 T2) (sc : SourceContext)
    (a : T1) (b : T2) (t : Try) : bool * Try :=
  run sc
      (check le "The first argument is not less than or equal to the second!")
      (pcons a (pcons b pnil)) t.

End Comparisons.

(** The lambda of [throws<T>]. *)
Definition expect_throw {Ts : list Type} {R : Type} (T : string)
    (test : pack Ts -> effect R) (args : pack Ts) : effect unit :=
  try_catch (test args)
    (fun _ => throw (runtime_error "Test did not throw!"))
    (fun e =>
       if catches T e then ret tt
       else if catches std_exception e then
         throw (runtime_error
                  ("Test throws a wrong exception (" ++ dyn_type e ++ "): "
                     ++ what e))
       else throw (runtime_error "Test throws a wrong non-exception!")).

Definition throws {Ts : list Type} {R : Type} (T : string)
    (sc : SourceContext) (test : pack Ts -> effect R) (args : pack Ts)
    (t : Try) : bool * Try :=
  run sc (expect_throw T test) args t.

(** ** Sequences of invocations *)

(** One use of the runner: the call operator or an assertion helper. *)
Inductive invocation : Type :=
| Run {Ts : list Type} {R : Type} (sc : SourceContext)
    (test : pack Ts -> effect R) (args : pack Ts)
| Equal {T1 T2 : Type} {i1 : TypeInfo T1} {i2 : TypeInfo T2}
    (op : comparison T1 T2) (sc : SourceContext) (a : T1) (b : T2)
| NotEqual {T1 T2 : Type} {i1 : TypeInfo T1} {i2 : TypeInfo T2}
    (op : comparison T1 T2) (sc : SourceContext) (a : T1) (b : T2)
| Less {T1 T2 : Type} {i1 : TypeInfo T1} {i2 : TypeInfo T2}
    (op : comparison T1 T2) (sc : SourceContext) (a : T1) (b : T2)
| LEqual {T1 T2 : Type} {i1 : TypeInfo T1} {i2 : TypeInfo T2}
    (op : comparison T1 T2) (sc : SourceContext) (a : T1) (b : T2)
| Throws {Ts : list Type} {R : Type} (T : string) (sc : SourceContext)
    (test : pack Ts -> effect R) (args : pack Ts).

Definition invoke (i : invocation) (t : Try) : bool * Try :=
  match i with
  | Run sc test args => run sc test args t
  | Equal op sc a b => equal op sc a b t
  | NotEqual op sc a b => notequal op sc a b t
  | Less op sc a b => less op sc a b t
  | LEqual op sc a b => lequal op sc a b t
  | Throws T sc test args => throws T sc test args t
  end.

(** The runner after the invocations of [l], made in order. *)
Fixpoint invoke_all (l : list invocation) (t : Try) : Try :=
  match l with
  | [] => t
  | i :: l' => invoke_all l' (snd (invoke i t))
  end.

(** What the invocations of [l] returned, in order. *)
Fixpoint verdicts (l : list invocation) (t : Try) : list bool :=
  match l with
  | [] => []
  | i :: l' => fst (invoke i t) :: verdicts l' (snd (invoke i t))
  end.

Definition count (b : bool) (l : list bool) : nat :=
  length (filter (Bool.eqb b) l).

(** Both counters are values of [std::size_t]. *)
Definition in_range (t : Try) : Prop :=
  mSuccesCount t < Size.modulus /\ mFailCount t < Size.modulus.

(** ** The text of a failure report, as the specification lays it out *)

(** A failure is describable when the handler for [std::exception]
    takes it. *)
Definition describable (e : thrown) : bool := catches std_exception e.

Definition context_text (sc : SourceContext) : string :=
  file sc ++ ", line " ++ Size.to_string (line sc).

Definition message_line (e : thrown) : string :=
  if describable e then "Message: " ++ dquote ++ what e ++ dquote ++ endl
  else "(no message)" ++ endl.

Definition report_head (sc : SourceContext) (e : thrown) : string :=
  "Test failed: " ++ context_text sc ++ endl ++ message_line e.

(** The rendering of one value. *)
Definition render {T : Type} `{TypeInfo T} (arg : T) : string :=
  stream "" arg.

(** The renderings of the arguments, first to last. *)
Fixpoint rendered {Ts : list Type} (p : pack Ts) : list string :=
  match p with
  | pnil => []
  | pcons first args => render first :: rendered args
  end.

(** Each string on a line of its own. *)
Fixpoint lines (l : list string) : string :=
  match l with
  | [] => ""
  | s :: l' => s ++ endl ++ lines l'
  end.

(** The argument section: after the rendered lines comes the newline
    of the empty pack. *)
Definition arguments_section {Ts : list Type} (p : pack Ts) : string :=
  match rendered p with
  | [] => "(no arguments)" ++ endl ++ endl
  | ls => "Arguments:" ++ endl ++ lines ls ++ endl
  end.

Definition failure_report {Ts : list Type} (sc : SourceContext) (e : thrown)
    (p : pack Ts) : string :=
  report_head sc e ++ arguments_section p.

(** The runner after a failed test that left the stream at [os]. *)
Definition failed {Ts : list Type} (sc : SourceContext) (e : thrown)
    (p : pack Ts) (os : ostream) (t : Try) : Try :=
  {| mOs := os ++ failure_report sc e p;
     mSuccesCount := mSuccesCount t;
     mFailCount := Size.incr (mFailCount t) |}.

(** The runner after a passed test that left the stream at [os]. *)
Definition passed (os : ostream) (t : Try) : Try :=
  {| mOs := os;
     mSuccesCount := Size.incr (mSuccesCount t);
     mFailCount := mFailCount t |}.

(** ** Sample types and values *)

(** C++ [int], printed in decimal; its name under the Itanium ABI. *)
#[export] Instance int_info : TypeInfo Z :=
  {| type_name := "i";
     is_nullptr_t := false;
     insertion := Some (fun z => NilZero.string_of_int (Z.to_int z)) |}.

(** [struct S {};] with no [operator<<]. *)
Inductive S_struct : Type := S_value.

#[export] Instance S_info : TypeInfo S_struct :=
  {| type_name := "1S"; is_nullptr_t := false; insertion := None |}.

(** [std::nullptr_t], for which [os << nullptr] is ambiguous before
    C++17 and prints [nullptr] from C++17 on. *)
Inductive nullptr_t : Type := nullptr.

Definition nullptr_info (cxx17 : bool) : TypeInfo nullptr_t :=
  {| type_name := "Dn";
     is_nullptr_t := true;
     insertion := if cxx17 then Some (fun _ => "nullptr") else None |}.

(** The built-in comparisons of [int]. *)
Definition int_eq : comparison Z Z := fun a b => ret (Z.eqb a b).
Definition int_ne : comparison Z Z := fun a b => ret (negb (Z.eqb a b)).
Definition int_lt : comparison Z Z := fun a b => ret (Z.ltb a b).
Definition int_le : comparison Z Z := fun a b => ret (Z.leb a b).

(** [SC] at line 7 of [test.cpp]. *)
Definition sc0 : SourceContext := {| file := "test.cpp"; line := 7 |}.

(** A thrown [int]: not a class, no bases, no [what()]. *)
Definition thrown_int : thrown :=
  {| dyn_type := "i"; bases := []; what := "" |}.

(** Bodies that ignore their arguments: one that returns, one that
    throws [std::runtime_error{"boom"}] and one that throws [42]. *)
Definition passing {Ts : list Type} : pack Ts -> effect unit :=
  fun _ => ret tt.
Definition failing {Ts : list Type} : pack Ts -> effect unit :=
  fun _ => throw (runtime_error "boom").
Definition throwing_int {Ts : list Type} : pack Ts -> effect unit :=
  fun _ => throw thrown_int.

(** ** Callables that leave the stream alone *)

(** A call that writes nothing, whatever the stream holds. *)
Definition quiet_call {R : Type} (c : effect R) : Prop :=
  forall os, snd (c os) = os.

(** An invocation whose body, or comparison operator, writes nothing. *)
Definition quiet (i : invocation) : Prop :=
  match i with
  | Run _ test args => quiet_call (test args)
  | Equal op _ a b => quiet_call (op a b)
  | NotEqual op _ a b => quiet_call (op a b)
  | Less op _ a b => quiet_call (op a b)
  | LEqual op _ a b => quiet_call (op a b)
  | Throws _ _ test args => quiet_call (test args)
  end.

(** Every verdict of the list is true. *)
Definition all_passed (v : list bool) : bool := forallb (fun b => b) v.

(** The number of commas of a text. *)
Fixpoint commas (s : string) : nat :=
  match s with
  | EmptyString => 0
  | String c s' => ((if Ascii.eqb c "," then 1 else 0) + commas s')%nat
  end.

(** * Properties *)

(** ** Text *)

Lemma append_assoc (a b c : string) : (a ++ b) ++ c = a ++ (b ++ c).
Proof.
  induction a as [|ch a IH]; simpl; [reflexivity | now rewrite IH].
Qed.

Lemma append_nil_r (a : string) : a ++ "" = a.
Proof.
  induction a as [|ch a IH]; simpl; [reflexivity | now rewrite IH].
Qed.

Lemma append_inv_head (a b c : string) : a ++ b = a ++ c -> b = c.
Proof.
  induction a as [|ch a IH]; simpl; intro E; [exact E|].
  injection E as E. now apply IH.
Qed.

(** Brings a chain of insertions to one right-nested concatenation. *)
Ltac flatten :=
  unfold put_context, put, endl, dquote;
  repeat progress (rewrite ?append_assoc; simpl).

Lemma stream_put {T : Type} `{TypeInfo T} (os : ostream) (arg : T) :
  stream os arg = os ++ render arg.
Proof.
  unfold render, stream.
  destruct (is_nullptr_t T); [reflexivity|].
  destruct (insertion T) as [text|]; flatten; reflexivity.
Qed.

Lemma streamArgs_put {Ts : list Type} (p : pack Ts) :
  forall os, streamArgs os p = os ++ lines (rendered p) ++ endl.
Proof.
  induction p as [|T Ts ti first args IH]; intro os; simpl.
  - reflexivity.
  - rewrite IH, stream_put. flatten. reflexivity.
Qed.

Lemma rendered_length {Ts : list Type} (p : pack Ts) :
  length (rendered p) = length Ts.
Proof.
  induction p as [|T Ts ti first args IH]; simpl; [reflexivity | now rewrite IH].
Qed.

(** ** One call of the runner *)

Lemma run_returned {Ts : list Type} {R : Type} (sc : SourceContext)
    (test : pack Ts -> effect R) (args : pack Ts) (t : Try) (r : R)
    (os : ostream) :
  test args (mOs t) = (Returned r, os) ->
  run sc test args t = (true, passed os t).
Proof.
  intro E. unfold run. rewrite E. reflexivity.
Qed.

Lemma run_threw {Ts : list Type} {R : Type} (sc : SourceContext)
    (test : pack Ts -> effect R) (args : pack Ts) (t : Try) (e : thrown)
    (os : ostream) :
  test args (mOs t) = (Threw e, os) ->
  run sc test args t = (false, failed sc e args os t).
Proof.
  intro E. unfold run. rewrite E.
  unfold failed, failure_report, report_head, message_line, describable,
    context_text, arguments_section.
  do 2 f_equal.
  destruct args as [|T Ts ti first args]; simpl;
    [| rewrite streamArgs_put, stream_put ];
    destruct (catches std_exception e); flatten; reflexivity.
Qed.

(** Either way one counter is incremented and the other kept. *)
Lemma run_counts {Ts : list Type} {R : Type} (sc : SourceContext)
    (test : pack Ts -> effect R) (args : pack Ts) (t : Try) :
  (fst (run sc test args t) = true
   /\ mSuccesCount (snd (run sc test args t)) = Size.incr (mSuccesCount t)
   /\ mFailCount (snd (run sc test args t)) = mFailCount t)
  \/
  (fst (run sc test args t) = false
   /\ mSuccesCount (snd (run sc test args t)) = mSuccesCount t
   /\ mFailCount (snd (run sc test args t)) = Size.incr (mFailCount t)).
Proof.
  destruct (test args (mOs t)) as [[r|e] os] eqn:E.
  - left. rewrite (run_returned sc test args t r os E). simpl. auto.
  - right. rewrite (run_threw sc test args t e os E). simpl. auto.
Qed.

Lemma invoke_counts (i : invocation) (t : Try) :
  (fst (invoke i t) = true
   /\ mSuccesCount (snd (invoke i t)) = Size.incr (mSuccesCount t)
   /\ mFailCount (snd (invoke i t)) = mFailCount t)
  \/
  (fst (invoke i t) = false
   /\ mSuccesCount (snd (invoke i t)) = mSuccesCount t
   /\ mFailCount (snd (invoke i t)) = Size.incr (mFailCount t)).
Proof.
  destruct i; simpl; apply run_counts.
Qed.






(** C7: on a failing call the text appended to the stream, right after
    what the body left there, starts with the line
    [Test failed: <file>, line <line>], followed by the line
    [Message: "<message>"] when the failure is a [std::exception] and by
    the line [(no message)] when it is not; the argument section
    follows. *)
Theorem report_starts_with_context_and_message {Ts : list Type} {R : Type}
    (sc : SourceContext) (test : pack Ts -> effect R) (args : pack Ts)
    (t : Try) (e : thrown) (os : ostream) :
  test args (mOs t) = (Threw e, os) ->
  mOs (snd (run sc test args t)) =
    os ++ "Test failed: " ++ file sc ++ ", line "
       ++ Size.to_string (line sc) ++ endl
       ++ (if catches std_exception e
           then "Message: " ++ dquote ++ what e ++ dquote ++ endl
           else "(no message)" ++ endl)
       ++ arguments_section args.
Proof.
  intro E. rewrite (run_threw sc test args t e os E). simpl.
  unfold failure_report, report_head, message_line, describable, context_text.
  destruct (catches std_exception e); flatten; reflexivity.
Qed.

Lemma report_starts_with_context_and_message_witness :
  (failing pnil (mOs (Try_new "log:")) = (Threw (runtime_error "boom"), "log:")
   /\ throwing_int pnil (mOs (Try_new "log:")) = (Threw thrown_int, "log:"))
  /\
  mOs (snd (run sc0 failing pnil (Try_new "log:"))) =
    "log:" ++ "Test failed: " ++ "test.cpp" ++ ", line " ++ "7" ++ endl
       ++ ("Message: " ++ dquote ++ "boom" ++ dquote ++ endl)
       ++ "(no arguments)" ++ endl ++ endl
  /\
  mOs (snd (run sc0 throwing_int pnil (Try_new "log:"))) =
    "log:" ++ "Test failed: " ++ "test.cpp" ++ ", line " ++ "7" ++ endl
       ++ ("(no message)" ++ endl)
       ++ "(no arguments)" ++ endl ++ endl.
Proof.
  split; [split; reflexivity|].
  split.
  - apply (report_starts_with_context_and_message sc0 failing pnil
             (Try_new "log:") (runtime_error "boom") "log:").
    reflexivity.
  - apply (report_starts_with_context_and_message sc0 throwing_int pnil
             (Try_new "log:") thrown_int "log:").
    reflexivity.
Defined.

(** ** The argument section *)

(** With one argument the report does not stop after the rendered
    line: the newline of the empty pack follows it. *)
Lemma one_argument_report_has_trailing_line :
  mOs (snd (run sc0 failing (pcons 1%Z pnil) (Try_new "")))
    = report_head sc0 (runtime_error "boom")
        ++ "Arguments:" ++ endl ++ lines [render 1%Z] ++ endl
  /\
  mOs (snd (run sc0 failing (pcons 1%Z pnil) (Try_new "")))
    <> report_head sc0 (runtime_error "boom")
        ++ "Arguments:" ++ endl ++ lines [render 1%Z].
Proof.
  split.
  - vm_compute. reflexivity.
  - apply String.eqb_neq. vm_compute. reflexivity.
Qed.

(** C8, amended: on a failing call with no argument the text after the
    message line is the line [(no arguments)] and an empty line; with
    N >= 1 arguments it is the line [Arguments:], then exactly N lines,
    the renderings of the arguments in the order they were supplied,
    then an empty line. *)
Theorem arguments_section_of_report {Ts : list Type} {R : Type}
    (sc : SourceContext) (test : pack Ts -> effect R) (args : pack Ts)
    (t : Try) (e : thrown) (os : ostream) :
  test args (mOs t) = (Threw e, os) ->
  mOs (snd (run sc test args t)) =
    os ++ report_head sc e
       ++ match Ts with
          | [] => "(no arguments)" ++ endl ++ endl
          | _ :: _ => "Arguments:" ++ endl ++ lines (rendered args) ++ endl
          end
  /\ length (rendered args) = length Ts.
Proof.
  intro E. split; [| apply rendered_length].
  rewrite (run_threw sc test args t e os E). simpl.
  unfold failure_report, arguments_section.
  destruct args as [|T Ts ti first args]; reflexivity.
Qed.

Lemma arguments_section_of_report_witness :
  failing (pcons 4%Z (pcons S_value pnil)) (mOs (Try_new ""))
    = (Threw (runtime_error "boom"), "")
  /\
  mOs (snd (run sc0 failing (pcons 4%Z (pcons S_value pnil)) (Try_new ""))) =
    "" ++ report_head sc0 (runtime_error "boom")
       ++ "Arguments:" ++ endl
       ++ lines (rendered (pcons 4%Z (pcons S_value pnil))) ++ endl
  /\ length (rendered (pcons 4%Z (pcons S_value pnil))) = 2%nat.
Proof.
  split; [reflexivity|].
  apply (arguments_section_of_report sc0 failing
           (pcons 4%Z (pcons S_value pnil)) (Try_new "")
           (runtime_error "boom") "").
  reflexivity.
Defined.

(** C10: when the body returns, the call operator writes nothing: the
    stream is as the body left it, and the failure count is unchanged. *)
Theorem success_writes_nothing {Ts : list Type} {R : Type}
    (sc : SourceContext) (test : pack Ts -> effect R) (args : pack Ts)
    (t : Try) (r : R) (os : ostream) :
  test args (mOs t) = (Returned r, os) ->
  mOs (snd (run sc test args t)) = os
  /\ mFailCount (snd (run sc test args t)) = mFailCount t.
Proof.
  intro E. rewrite (run_returned sc test args t r os E). simpl. auto.
Qed.

Lemma success_writes_nothing_witness :
  passing (pcons 1%Z pnil) (mOs (Try_new "so far")) = (Returned tt, "so far")
  /\
  mOs (snd (run sc0 passing (pcons 1%Z pnil) (Try_new "so far"))) = "so far"
  /\ mFailCount (snd (run sc0 passing (pcons 1%Z pnil) (Try_new "so far")))
     = mFailCount (Try_new "so far").
Proof.
  split; [reflexivity|].
  apply (success_writes_nothing sc0 passing (pcons 1%Z pnil)
           (Try_new "so far") tt "so far").
  reflexivity.
Defined.

(** ** The value renderer *)

Lemma render_streamable {T : Type} `{TypeInfo T} (text : T -> string)
    (arg : T) :
  is_nullptr_t T = false -> insertion T = Some text ->
  render arg = dquote ++ text arg ++ dquote ++ " (" ++ type_name T ++ ")".
Proof.
  intros Hn Hi. unfold render, stream. rewrite Hn, Hi. flatten. reflexivity.
Qed.

Lemma render_unstreamable {T : Type} `{TypeInfo T} (arg : T) :
  is_nullptr_t T = false -> insertion T = None ->
  render arg = "[Can't print'] (" ++ type_name T ++ ")".
Proof.
  intros Hn Hi. unfold render, stream. rewrite Hn, Hi. flatten. reflexivity.
Qed.

(** C6, at a value without [operator<<]: the marker written has an
    apostrophe before the closing bracket, so the rendering is not
    [[Can't print] (<type name>)]. *)
Theorem unstreamable_marker_has_stray_apostrophe :
  stream "" S_value = "[Can't print'] (1S)"
  /\ stream "" S_value <> "[Can't print] (" ++ type_name S_struct ++ ")".
Proof.
  split.
  - reflexivity.
  - apply String.eqb_neq. reflexivity.
Qed.

(** C9: a value of type [std::nullptr_t] is rendered as
    ["nullptr" (nullptr_t)], whether or not the type is streamable and
    whatever its [typeid] name. *)
Theorem nullptr_rendering {T : Type} (ti : TypeInfo T) (os : ostream)
    (arg : T) :
  is_nullptr_t T = true ->
  stream os arg = os ++ dquote ++ "nullptr" ++ dquote ++ " (nullptr_t)".
Proof.
  intro Hn. unfold stream. rewrite Hn. reflexivity.
Qed.

Lemma nullptr_rendering_witness :
  (@is_nullptr_t nullptr_t (nullptr_info true) = true
   /\ @is_nullptr_t nullptr_t (nullptr_info false) = true)
  /\
  @stream nullptr_t (nullptr_info true) "" nullptr
    = "" ++ dquote ++ "nullptr" ++ dquote ++ " (nullptr_t)"
  /\ @stream nullptr_t (nullptr_info false) "" nullptr
    = "" ++ dquote ++ "nullptr" ++ dquote ++ " (nullptr_t)".
Proof.
  split; [split; reflexivity|].
  split.
  - apply (nullptr_rendering (nullptr_info true) "" nullptr). reflexivity.
  - apply (nullptr_rendering (nullptr_info false) "" nullptr). reflexivity.
Defined.

(** ** The assertion helpers *)






(** The first properties of the specification's section 8. *)
Example equal_1_1 (os : ostream) :
  equal int_eq sc0 1%Z 1%Z (Try_new os)
  = (true, {| mOs := os; mSuccesCount := 1; mFailCount := 0 |}).
Proof. reflexivity. Qed.

Example equal_1_2 :
  equal int_eq sc0 1%Z 2%Z (Try_new "")
  = (false,
     {| mOs := "Test failed: test.cpp, line 7" ++ endl
                 ++ "Message: " ++ dquote ++ "Arguments are not equal!"
                 ++ dquote ++ endl
                 ++ "Arguments:" ++ endl
                 ++ dquote ++ "1" ++ dquote ++ " (i)" ++ endl
                 ++ dquote ++ "2" ++ dquote ++ " (i)" ++ endl
                 ++ endl;
        mSuccesCount := 0;
        mFailCount := 1 |}).
Proof. reflexivity. Qed.





(** The properties of [throws] in the specification's section 8. *)
Example throws_expected :
  fst (throws std_runtime_error sc0 failing pnil (Try_new "")) = true.
Proof. reflexivity. Qed.

Example throws_wrong_exception :
  throws "St11logic_error" sc0 failing pnil (Try_new "")
  = (false,
     {| mOs := "Test failed: test.cpp, line 7" ++ endl
                 ++ "Message: " ++ dquote
                 ++ "Test throws a wrong exception (St13runtime_error): boom"
                 ++ dquote ++ endl
                 ++ "(no arguments)" ++ endl ++ endl;
        mSuccesCount := 0;
        mFailCount := 1 |}).
Proof. reflexivity. Qed.

Example throws_nothing :
  throws std_runtime_error sc0 passing pnil (Try_new "")
  = (false,
     {| mOs := "Test failed: test.cpp, line 7" ++ endl
                 ++ "Message: " ++ dquote ++ "Test did not throw!"
                 ++ dquote ++ endl
                 ++ "(no arguments)" ++ endl ++ endl;
        mSuccesCount := 0;
        mFailCount := 1 |}).
Proof. reflexivity. Qed.

(** ** The counters along a sequence of invocations *)

Lemma modulus_nonzero : Size.modulus <> 0.
Proof. discriminate. Qed.

Lemma incr_below_modulus (n : N) : Size.incr n < Size.modulus.
Proof. apply N.mod_lt, modulus_nonzero. Qed.

Lemma Try_new_in_range (os : ostream) : in_range (Try_new os).
Proof.
  split; simpl; apply N.neq_0_lt_0, modulus_nonzero.
Qed.

Lemma invoke_in_range (i : invocation) (t : Try) :
  in_range t -> in_range (snd (invoke i t)).
Proof.
  intros [Hs Hf]. unfold in_range.
  destruct (invoke_counts i t) as [(_ & Es & Ef) | (_ & Es & Ef)];
    rewrite Es, Ef; auto using incr_below_modulus.
Qed.

Lemma invoke_all_in_range (l : list invocation) :
  forall t, in_range t -> in_range (invoke_all l t).
Proof.
  induction l as [|i l IH]; intros t Ht; simpl; [exact Ht|].
  apply IH, invoke_in_range, Ht.
Qed.

Lemma invoke_all_app (l1 l2 : list invocation) :
  forall t, invoke_all (l1 ++ l2)%list t = invoke_all l2 (invoke_all l1 t).
Proof.
  induction l1 as [|i l1 IH]; intro t; simpl; [reflexivity | apply IH].
Qed.

Lemma verdicts_app (l1 l2 : list invocation) :
  forall t,
    verdicts (l1 ++ l2)%list t
    = (verdicts l1 t ++ verdicts l2 (invoke_all l1 t))%list.
Proof.
  induction l1 as [|i l1 IH]; intro t; simpl; [reflexivity|].
  now rewrite IH.
Qed.

Lemma verdicts_length (l : list invocation) :
  forall t, length (verdicts l t) = length l.
Proof.
  induction l as [|i l IH]; intro t; simpl; [reflexivity | now rewrite IH].
Qed.

Lemma count_app (b : bool) (v1 v2 : list bool) :
  count b (v1 ++ v2)%list = (count b v1 + count b v2)%nat.
Proof.
  unfold count. now rewrite filter_app, length_app.
Qed.

Lemma count_split (v : list bool) :
  (count true v + count false v)%nat = length v.
Proof.
  unfold count. induction v as [|[|] v IH]; simpl; lia.
Qed.

(** Each counter is the number of its verdicts so far, modulo 2^64. *)
Lemma counters_modulo (l : list invocation) :
  forall t, in_range t ->
    mSuccesCount (invoke_all l t)
      = (mSuccesCount t + N.of_nat (count true (verdicts l t)))
          mod Size.modulus
    /\ mFailCount (invoke_all l t)
      = (mFailCount t + N.of_nat (count false (verdicts l t)))
          mod Size.modulus.
Proof.
  induction l as [|i l IH]; intros t Ht.
  - destruct Ht as [Hs Hf]. simpl. unfold count. simpl.
    rewrite !N.add_0_r, !N.mod_small by assumption. auto.
  - cbn [invoke_all verdicts].
    destruct (IH _ (invoke_in_range i t Ht)) as [Es Ef].
    rewrite Es, Ef.
    destruct (invoke_counts i t) as [(Eb & Es' & Ef') | (Eb & Es' & Ef')];
      rewrite Eb, Es', Ef'; unfold Size.incr, count; cbn [filter Bool.eqb];
      cbn [length]; rewrite ?N.Div0.add_mod_idemp_l;
      split; f_equal; lia.
Qed.

(** Below 2^64 invocations on a fresh runner nothing wraps. *)
Lemma counters_exact (os : ostream) (l : list invocation) :
  N.of_nat (length l) < Size.modulus ->
  mSuccesCount (invoke_all l (Try_new os))
    = N.of_nat (count true (verdicts l (Try_new os)))
  /\ mFailCount (invoke_all l (Try_new os))
    = N.of_nat (count false (verdicts l (Try_new os))).
Proof.
  intro Hl.
  destruct (counters_modulo l _ (Try_new_in_range os)) as [Es Ef].
  rewrite Es, Ef. simpl mSuccesCount. simpl mFailCount.
  pose proof (count_split (verdicts l (Try_new os))) as Hc.
  rewrite verdicts_length in Hc.
  rewrite !N.add_0_l, !N.mod_small by lia. auto.
Qed.

Lemma verdicts_repeat_passing (n : nat) :
  forall t, verdicts (repeat (Run sc0 (@passing []) pnil) n) t = repeat true n.
Proof.
  induction n as [|n IH]; intro t; [reflexivity|].
  cbn [repeat verdicts]. rewrite IH. reflexivity.
Qed.

Lemma count_repeat (b c : bool) (n : nat) :
  count b (repeat c n) = if Bool.eqb b c then n else 0%nat.
Proof.
  unfold count. induction n as [|n IH]; cbn [repeat filter].
  - now destruct (Bool.eqb b c).
  - destruct (Bool.eqb b c); cbn [length]; now rewrite ?IH.
Qed.

(** After 2^64 passing tests on a fresh runner both counters read 0. *)
Lemma counters_wrap_around :
  mSuccesCount
    (invoke_all (repeat (Run sc0 (@passing []) pnil)
                   (N.to_nat Size.modulus)) (Try_new ""))
  + mFailCount
      (invoke_all (repeat (Run sc0 (@passing []) pnil)
                     (N.to_nat Size.modulus)) (Try_new ""))
  <> N.of_nat
       (length (repeat (Run sc0 (@passing []) pnil) (N.to_nat Size.modulus))).
Proof.
  destruct (counters_modulo
              (repeat (Run sc0 (@passing []) pnil) (N.to_nat Size.modulus))
              _ (Try_new_in_range "")) as [Es Ef].
  rewrite Es, Ef, verdicts_repeat_passing, !count_repeat, repeat_length.
  cbn [Bool.eqb mSuccesCount mFailCount Try_new].
  change (N.of_nat 0) with 0.
  rewrite N2Nat.id, (N.add_0_l Size.modulus), (N.add_0_l 0).
  rewrite N.Div0.mod_same, N.Div0.mod_0_l, (N.add_0_l 0).
  apply N.neq_sym, modulus_nonzero.
Qed.

(** C2, amended: for every sequence of N invocations of the runner,
    through the call operator or an assertion helper, on a freshly
    constructed runner, with N below 2^64, the range of the
    [std::size_t] counters: the two counts add up to N afterwards;
    neither count decreases from one point of the sequence to a later
    one; and each invocation adds one to exactly one of the two counts and
    leaves the other as it was. *)
Theorem counters_account_for_invocations (os : ostream)
    (l : list invocation) :
  N.of_nat (length l) < Size.modulus ->
  mSuccesCount (invoke_all l (Try_new os))
    + mFailCount (invoke_all l (Try_new os)) = N.of_nat (length l)
  /\ (forall l1 l2 l3 : list invocation,
        l = (l1 ++ l2 ++ l3)%list ->
        mSuccesCount (invoke_all l1 (Try_new os))
          <= mSuccesCount (invoke_all (l1 ++ l2)%list (Try_new os))
        /\ mFailCount (invoke_all l1 (Try_new os))
          <= mFailCount (invoke_all (l1 ++ l2)%list (Try_new os)))
  /\ (forall (l1 : list invocation) (i : invocation) (l2 : list invocation),
        l = (l1 ++ i :: l2)%list ->
        (mSuccesCount (snd (invoke i (invoke_all l1 (Try_new os))))
           = mSuccesCount (invoke_all l1 (Try_new os)) + 1
         /\ mFailCount (snd (invoke i (invoke_all l1 (Try_new os))))
           = mFailCount (invoke_all l1 (Try_new os)))
        \/
        (mSuccesCount (snd (invoke i (invoke_all l1 (Try_new os))))
           = mSuccesCount (invoke_all l1 (Try_new os))
         /\ mFailCount (snd (invoke i (invoke_all l1 (Try_new os))))
           = mFailCount (invoke_all l1 (Try_new os)) + 1)).
Proof.
  intro Hl. repeat split.
  - destruct (counters_exact os l Hl) as [Es Ef]. rewrite Es, Ef.
    pose proof (count_split (verdicts l (Try_new os))) as Hc.
    rewrite verdicts_length in Hc. lia.
  - subst l. rewrite !length_app in Hl.
    destruct (counters_exact os l1) as [E1 _]; [lia|].
    destruct (counters_exact os (l1 ++ l2)%list) as [E2 _];
      [rewrite length_app; lia|].
    rewrite E1, E2, verdicts_app, count_app. lia.
  - subst l. rewrite !length_app in Hl.
    destruct (counters_exact os l1) as [_ E1]; [lia|].
    destruct (counters_exact os (l1 ++ l2)%list) as [_ E2];
      [rewrite length_app; lia|].
    rewrite E1, E2, verdicts_app, count_app. lia.
  - intros l1 i l2 El. subst l. rewrite length_app in Hl. cbn [length] in Hl.
    destruct (counters_exact os l1) as [E1s E1f]; [lia|].
    pose proof (count_split (verdicts l1 (Try_new os))) as Hc.
    rewrite verdicts_length in Hc.
    destruct (invoke_counts i (invoke_all l1 (Try_new os)))
      as [(_ & Es & Ef) | (_ & Es & Ef)]; [left | right];
      rewrite Es, Ef; unfold Size.incr; split; try reflexivity;
      apply N.mod_small; lia.
Qed.

Lemma counters_account_for_invocations_witness :
  N.of_nat 3 < Size.modulus
  /\
  mSuccesCount
    (invoke_all [Equal int_eq sc0 4%Z 4%Z; Equal int_eq sc0 4%Z 5%Z;
                 Throws std_runtime_error sc0 (@failing []) pnil]
       (Try_new ""))
  + mFailCount
      (invoke_all [Equal int_eq sc0 4%Z 4%Z; Equal int_eq sc0 4%Z 5%Z;
                   Throws std_runtime_error sc0 (@failing []) pnil]
         (Try_new ""))
  = 3.
Proof.
  split; [reflexivity|].
  apply (counters_account_for_invocations ""
           [Equal int_eq sc0 4%Z 4%Z; Equal int_eq sc0 4%Z 5%Z;
            Throws std_runtime_error sc0 (@failing []) pnil]).
  reflexivity.
Defined.

(** * Further properties of the header *)

(** ** notequal, less and lequal *)





(** ** The counts as a summary of the run *)

Lemma count_false_all_passed (v : list bool) :
  count false v = 0%nat <-> all_passed v = true.
Proof.
  unfold count, all_passed.
  induction v as [|[|] v IH]; simpl; [tauto | exact IH | split; discriminate].
Qed.

Lemma count_true_all_passed (v : list bool) :
  count true v = length v <-> all_passed v = true.
Proof.
  rewrite <- count_false_all_passed.
  pose proof (count_split v). lia.
Qed.

(** X4: on a freshly constructed runner, after fewer than 2^64
    invocations, [failCount()] is 0 exactly when every invocation
    returned true, and so is [succesCount()] the number of invocations;
    in any case [succesCount()] is the number of invocations that
    returned true and [failCount()] the number that returned false. *)
Theorem counts_summarise_verdicts (os : ostream) (l : list invocation) :
  N.of_nat (length l) < Size.modulus ->
  (failCount (invoke_all l (Try_new os)) = 0
   <-> all_passed (verdicts l (Try_new os)) = true)
  /\ (succesCount (invoke_all l (Try_new os)) = N.of_nat (length l)
      <-> all_passed (verdicts l (Try_new os)) = true)
  /\ succesCount (invoke_all l (Try_new os))
     = N.of_nat (count true (verdicts l (Try_new os)))
  /\ failCount (invoke_all l (Try_new os))
     = N.of_nat (count false (verdicts l (Try_new os))).
Proof.
  intro Hl. unfold succesCount, failCount.
  destruct (counters_exact os l Hl) as [Es Ef]. rewrite Es, Ef.
  pose proof (verdicts_length l (Try_new os)) as Hv.
  repeat split; try reflexivity.
  - intro E. apply count_false_all_passed. lia.
  - intro E. apply count_false_all_passed in E. lia.
  - intro E. apply count_true_all_passed. lia.
  - intro E. apply count_true_all_passed in E. lia.
Qed.

Lemma counts_summarise_verdicts_witness :
  N.of_nat 2 < Size.modulus
  /\ (failCount
        (invoke_all [Less int_lt sc0 1%Z 2%Z; LEqual int_le sc0 3%Z 2%Z]
           (Try_new "")) = 0
      <-> all_passed
            (verdicts [Less int_lt sc0 1%Z 2%Z; LEqual int_le sc0 3%Z 2%Z]
               (Try_new "")) = true).
Proof.
  split; [reflexivity|].
  apply (counts_summarise_verdicts ""
           [Less int_lt sc0 1%Z 2%Z; LEqual int_le sc0 3%Z 2%Z]).
  reflexivity.
Defined.

(** ** What reaches the stream *)

Lemma check_stream {T1 T2 : Type} {i1 : TypeInfo T1} {i2 : TypeInfo T2}
    (op : comparison T1 T2) (msg : string) (a : T1) (b : T2) (os : ostream) :
  snd (check op msg (pcons a (pcons b pnil)) os) = snd (op a b os).
Proof.
  unfold check, bind. simpl.
  destruct (op a b os) as [[[|]|e] os']; reflexivity.
Qed.

Lemma expect_throw_stream {Ts : list Type} {R : Type} (T : string)
    (test : pack Ts -> effect R) (args : pack Ts) (os : ostream) :
  snd (expect_throw T test args os) = snd (test args os).
Proof.
  unfold expect_throw, try_catch.
  destruct (test args os) as [[r|e] os']; [reflexivity|].
  destruct (catches T e); [reflexivity|].
  destruct (catches std_exception e); reflexivity.
Qed.

(** A call with a body that writes nothing: nothing on success, a report
    after the text already there on failure. *)
Lemma run_quiet {Ts : list Type} {R : Type} (sc : SourceContext)
    (test : pack Ts -> effect R) (args : pack Ts) (t : Try) :
  snd (test args (mOs t)) = mOs t ->
  (fst (run sc test args t) = true
   /\ mOs (snd (run sc test args t)) = mOs t)
  \/
  (fst (run sc test args t) = false
   /\ exists rest,
        mOs (snd (run sc test args t)) = mOs t ++ "Test failed: " ++ rest).
Proof.
  intro Hq. destruct (test args (mOs t)) as [[r|e] os] eqn:E;
    simpl in Hq; subst os.
  - left. rewrite (run_returned sc test args t r _ E). auto.
  - right. rewrite (run_threw sc test args t e _ E). simpl. split; [reflexivity|].
    unfold failure_report, report_head. rewrite append_assoc.
    eexists. reflexivity.
Qed.

Lemma invoke_quiet (i : invocation) (t : Try) :
  quiet i ->
  (fst (invoke i t) = true /\ mOs (snd (invoke i t)) = mOs t)
  \/
  (fst (invoke i t) = false
   /\ exists rest, mOs (snd (invoke i t)) = mOs t ++ "Test failed: " ++ rest).
Proof.
  destruct i; simpl; intro Hq; apply run_quiet;
    rewrite ?check_stream, ?expect_throw_stream; apply Hq.
Qed.

(** X5: when the bodies and comparison operators of a sequence of
    invocations write nothing themselves, the runner only appends to its
    stream, and it appends nothing exactly when every invocation returned
    true: what is in the stream after the run, beyond what was there
    before, is there because a test failed. *)
Theorem stream_grows_only_on_failure (l : list invocation) (t : Try) :
  Forall quiet l ->
  exists written : string,
    mOs (invoke_all l t) = mOs t ++ written
    /\ (written = "" <-> all_passed (verdicts l t) = true).
Proof.
  intro Hq. revert t.
  induction Hq as [|i l Hi Hl IH]; intro t.
  - exists "". simpl. rewrite append_nil_r. tauto.
  - cbn [invoke_all verdicts]. unfold all_passed. cbn [forallb].
    destruct (IH (snd (invoke i t))) as (w & Ew & Hw).
    destruct (invoke_quiet i t Hi) as [(Eb & Eo) | (Eb & rest & Eo)];
      rewrite Eb, Ew, Eo.
    + exists w. split; [reflexivity | exact Hw].
    + exists (("Test failed: " ++ rest) ++ w). split.
      * now rewrite append_assoc.
      * simpl. split; discriminate.
Qed.

Lemma stream_grows_only_on_failure_witness :
  Forall quiet [Equal int_eq sc0 4%Z 4%Z; NotEqual int_ne sc0 1%Z 1%Z]
  /\ exists written : string,
       mOs (invoke_all [Equal int_eq sc0 4%Z 4%Z; NotEqual int_ne sc0 1%Z 1%Z]
              (Try_new "so far"))
       = mOs (Try_new "so far") ++ written
       /\ (written = ""
           <-> all_passed
                 (verdicts [Equal int_eq sc0 4%Z 4%Z;
                            NotEqual int_ne sc0 1%Z 1%Z]
                    (Try_new "so far")) = true).
Proof.
  assert (Hq : Forall quiet
                 [Equal int_eq sc0 4%Z 4%Z; NotEqual int_ne sc0 1%Z 1%Z]).
  { repeat constructor. }
  split; [exact Hq|].
  exact (stream_grows_only_on_failure
           [Equal int_eq sc0 4%Z 4%Z; NotEqual int_ne sc0 1%Z 1%Z]
           (Try_new "so far") Hq).
Defined.


(** ** The rendering of a source context *)

Lemma commas_app (a b : string) : commas (a ++ b) = (commas a + commas b)%nat.
Proof.
  induction a as [|c a IH]; simpl; [reflexivity | rewrite IH; lia].
Qed.

Lemma commas_digits (d : Decimal.uint) :
  commas (NilEmpty.string_of_uint d) = 0%nat.
Proof.
  induction d; simpl; assumption || reflexivity.
Qed.

Lemma commas_to_string (n : N) : commas (Size.to_string n) = 0%nat.
Proof.
  unfold Size.to_string, NilZero.string_of_uint.
  destruct (N.to_uint n); try apply commas_digits. reflexivity.
Qed.

Lemma to_string_inj (n m : N) : Size.to_string n = Size.to_string m -> n = m.
Proof.
  unfold Size.to_string. intro E.
  assert (Hnn : forall k, N.to_uint k <> Decimal.Nil).
  { intros [|p]; simpl; [discriminate | apply DecimalPos.Unsigned.to_uint_nonnil]. }
  apply DecimalN.Unsigned.to_uint_inj.
  pose proof (NilZero.usu _ (Hnn n)) as Hn.
  pose proof (NilZero.usu _ (Hnn m)) as Hm.
  rewrite E in Hn. congruence.
Qed.

(** Two texts that end in [", line "] and a number are equal only when
    both parts are. *)
Lemma context_split (f1 f2 d1 d2 : string) :
  commas d1 = 0%nat -> commas d2 = 0%nat ->
  f1 ++ ", line " ++ d1 = f2 ++ ", line " ++ d2 ->
  f1 = f2 /\ d1 = d2.
Proof.
  intros H1 H2. revert f2.
  induction f1 as [|c f1 IH]; intros [|c' f2] E.
  - split; [reflexivity|]. now apply (append_inv_head ", line ").
  - exfalso. simpl in E. injection E as _ E.
    apply (f_equal commas) in E. rewrite commas_app in E. simpl in E. lia.
  - exfalso. simpl in E. injection E as _ E.
    apply (f_equal commas) in E. rewrite commas_app in E. simpl in E. lia.
  - simpl in E. injection E as Ec E.
    destruct (IH f2 E) as [Ef Ed]. subst. auto.
Qed.

(** X7: the text written for a source context determines the context:
    two contexts with different files or different lines are never
    written the same way. *)
Theorem context_rendering_injective (os : ostream) (sc1 sc2 : SourceContext) :
  put_context os sc1 = put_context os sc2 -> sc1 = sc2.
Proof.
  unfold put_context, put. rewrite !append_assoc. intro E.
  apply append_inv_head in E.
  destruct (context_split _ _ _ _ (commas_to_string (line sc1))
              (commas_to_string (line sc2)) E) as [Ef Ed].
  apply to_string_inj in Ed.
  destruct sc1, sc2; simpl in *; congruence.
Qed.

Lemma context_rendering_injective_witness :
  put_context "" sc0 = put_context "" {| file := "test.cpp"; line := 3 + 4 |}
  /\ sc0 = {| file := "test.cpp"; line := 3 + 4 |}.
Proof.
  split; [reflexivity|].
  apply (context_rendering_injective "" sc0
           {| file := "test.cpp"; line := 3 + 4 |}).
  reflexivity.
Defined.

(** ** throws and the call operator on the same body *)





(** ** Telling the renderings apart *)

(** X10: a rendering starts with an opening bracket exactly when the
    type is neither [std::nullptr_t] nor streamable, and with a double
    quote otherwise: the log shows which values could not be printed. *)
Theorem rendering_shows_streamability {T : Type} (ti : TypeInfo T)
    (arg : T) :
  (String.get 0 (stream "" arg) = Some "["%char
   <-> is_nullptr_t T = false /\ is_streamable T = false)
  /\ (String.get 0 (stream "" arg) = Some "034"%char
      <-> is_nullptr_t T = true \/ is_streamable T = true).
Proof.
  unfold stream, is_streamable.
  destruct (is_nullptr_t T); [| destruct (insertion T) as [text|]];
    simpl; split; split;
    try discriminate; try tauto; try (intros [? ?]; discriminate);
    try (intros [?|?]; discriminate); auto.
Qed.

(** ** The end of a report *)

Lemma lines_end (r : string) (l : list string) :
  exists s, lines (r :: l) = s ++ endl.
Proof.
  revert r. induction l as [|r' l IH]; intro r.
  - exists r. reflexivity.
  - destruct (IH r') as [s Es]. exists (r ++ endl ++ s).
    change (lines (r :: r' :: l)) with (r ++ endl ++ lines (r' :: l)).
    rewrite Es. now rewrite !append_assoc.
Qed.

Lemma arguments_section_end {Ts : list Type} (p : pack Ts) :
  exists s, arguments_section p = s ++ endl ++ endl.
Proof.
  unfold arguments_section.
  destruct p as [|T Ts ti first args]; cbn [rendered].
  - now exists "(no arguments)".
  - destruct (lines_end (render first) (rendered args)) as [s Es].
    exists ("Arguments:" ++ endl ++ s). rewrite Es.
    now rewrite !append_assoc.
Qed.

(** X11: every failure report, with or without arguments, starts with
    [Test failed: ] right after what the body left in the stream and
    ends with an empty line, so that consecutive reports are separated
    by one. *)
Theorem report_ends_with_empty_line {Ts : list Type} {R : Type}
    (sc : SourceContext) (test : pack Ts -> effect R) (args : pack Ts)
    (t : Try) (e : thrown) (os : ostream) :
  test args (mOs t) = (Threw e, os) ->
  exists text : string,
    mOs (snd (run sc test args t))
    = os ++ "Test failed: " ++ text ++ endl ++ endl.
Proof.
  intro E. rewrite (run_threw sc test args t e os E). simpl.
  destruct (arguments_section_end args) as [s Es].
  unfold failure_report, report_head. rewrite Es.
  exists (context_text sc ++ endl ++ message_line e ++ s).
  now rewrite !append_assoc.
Qed.

Lemma report_ends_with_empty_line_witness :
  throwing_int (pcons 1%Z (pcons S_value pnil)) (mOs (Try_new "log:"))
    = (Threw thrown_int, "log:")
  /\ exists text : string,
       mOs (snd (run sc0 throwing_int (pcons 1%Z (pcons S_value pnil))
                   (Try_new "log:")))
       = "log:" ++ "Test failed: " ++ text ++ endl ++ endl.
Proof.
  split; [reflexivity|].
  apply (report_ends_with_empty_line sc0 throwing_int
           (pcons 1%Z (pcons S_value pnil)) (Try_new "log:") thrown_int
           "log:").
  reflexivity.
Defined.

(** ** The counters without a bound on the run *)

(** X12: after any sequence of N invocations on a freshly constructed
    runner, however long, the sum of the two counts and N agree modulo
    2^64, and both counts are below 2^64. *)
Theorem counters_sum_modulo (os : ostream) (l : list invocation) :
  (mSuccesCount (invoke_all l (Try_new os))
   + mFailCount (invoke_all l (Try_new os))) mod Size.modulus
  = N.of_nat (length l) mod Size.modulus
  /\ mSuccesCount (invoke_all l (Try_new os)) < Size.modulus
  /\ mFailCount (invoke_all l (Try_new os)) < Size.modulus.
Proof.
  split; [| exact (invoke_all_in_range l _ (Try_new_in_range os))].
  destruct (counters_modulo l _ (Try_new_in_range os)) as [Es Ef].
  rewrite Es, Ef. simpl mSuccesCount. simpl mFailCount.
  rewrite !N.add_0_l, <- N.Div0.add_mod.
  pose proof (count_split (verdicts l (Try_new os))) as Hc.
  rewrite verdicts_length in Hc.
  f_equal. lia.
Qed.
